(** * rerust: a Result value and its four helpers (src/src/index.ts)

    The library is one discriminated union and four one-line functions:
    [ok], [err], [isOk] and [isErr].  Two readings of the same source are
    given here.

    - The typed reading follows the TypeScript declarations: [Result T E] is
      a record with a boolean [success] field and a [value] field whose type
      is [T] when [success] is true and [E] otherwise.
    - The run-time reading ([Module JS]) follows the emitted JavaScript:
      untyped values, objects living in a heap, property reads that throw on
      [undefined] and [null].  It is what totality and purity are about.

    The two readings are tied together by [ok_refines], [err_refines],
    [isOk_refines] and [isErr_refines]. *)

From Stdlib Require Import Bool List String Eqdep_dec Floats.PrimFloat.
From stdpp Require Import gmap strings.
Import ListNotations.

Local Open Scope string_scope.

(** ** Typed reading *)

(** TypeScript's [number] is an IEEE-754 double and [===] on two numbers is
    IEEE equality, which is [PrimFloat.eqb]. *)
Definition number : Type := float.

(** TypeScript's [never], the type without values. *)
Definition never : Type := Empty_set.

(** [type Result<T, E = string> =
       | { success: true; value: T } | { success: false; value: E }] *)
Record Result (T E : Type) : Type := mkResult {
  success : bool;
  value : if success then T else E
}.

Arguments mkResult {T E} success value.
Arguments success {T E} r.
Arguments value {T E} r.

(** The bound [E extends string]: the values of [E] are strings. *)
Class ExtendsString (E : Type) : Type := {
  to_string : E -> string;
  to_string_inj : forall a b : E, to_string a = to_string b -> a = b
}.

#[export] Instance string_extends_string : ExtendsString string :=
  {| to_string := fun s => s; to_string_inj := fun a b H => H |}.

(** [export const ok = <T>(value: T): Result<T> => ({ success: true, value })] *)
Definition ok {T : Type} (value : T) : Result T string :=
  {| success := true; value := value |}.

(** [export const err = <E extends string>(value: E): Result<never, E> =>
      ({ success: false, value })] *)
Definition err {E : Type} `{ExtendsString E} (value : E) : Result never E :=
  {| success := false; value := value |}.

(** [export const isOk = (result) => result.success] *)
Definition isOk {T E : Type} (result : Result T E) : bool :=
  success result.

(** [export const isErr = (result) => !result.success] *)
Definition isErr {T E : Type} (result : Result T E) : bool :=
  negb (success result).

(** *** Type guards

    [isOk] is declared [result is { success: true; value: T }]: after the
    check, [result.value] is read at type [T].  [valueOk] is that read; it
    asks for the evidence the guard provides.  [valueErr] is the same for
    [isErr]. *)
Definition valueOk {T E : Type} (result : Result T E) : isOk result = true -> T :=
  match result as r return isOk r = true -> T with
  | mkResult true v => fun _ => v
  | mkResult false _ => fun H => False_rect T (diff_false_true H)
  end.

Definition valueErr {T E : Type} (result : Result T E) : isErr result = true -> E :=
  match result as r return isErr r = true -> E with
  | mkResult true _ => fun H => False_rect E (diff_false_true H)
  | mkResult false v => fun _ => v
  end.

(** *** Subtyping

    A [Result<T, E>] is accepted where a [Result<T', E'>] is expected when
    [T] is a subtype of [T'] and [E] of [E'].  [never] is a subtype of every
    type and a type that extends [string] is a subtype of [string], so the
    [Result<never, E>] that [err] returns is accepted as a [Result<T>]. *)
Definition subsume {T E T' E' : Type} (f : T -> T') (g : E -> E')
    (r : Result T E) : Result T' E' :=
  match r with
  | mkResult true v => mkResult true (f v)
  | mkResult false v => mkResult false (g v)
  end.

Definition absurd {T : Type} (x : never) : T := match x with end.

Definition widen {T E : Type} `{ExtendsString E} (r : Result never E) : Result T string :=
  subsume absurd to_string r.

(** *** Arrays

    [Array.prototype.filter] called with a type guard returns the array of
    the kept elements at the narrowed type. *)
Fixpoint filter_guard {A : Type} (p : A -> bool) (l : list A) : list {a : A | p a = true} :=
  match l with
  | [] => []
  | a :: l' =>
      match p a as b return p a = b -> list {a : A | p a = true} with
      | true => fun H => exist _ a H :: filter_guard p l'
      | false => fun _ => filter_guard p l'
      end eq_refl
  end.

(** [results.filter(isOk).map(r => r.value)] (doc comment of [isOk]) *)
Definition successValues {T E : Type} (results : list (Result T E)) : list T :=
  map (fun r => valueOk (proj1_sig r) (proj2_sig r)) (filter_guard isOk results).

(** *** The lookup of src/src/index.test.ts *)

(** The object type [{ id: number; name: string }]. *)
Record User : Type := mkUser { id : number; name : string }.

(** [const findUser = (id: number) => {
       if (id === 1) return ok({ id: 1, name: "John" });
       return err("User not found");
     }] *)
Definition findUser (id : number) : Result User string :=
  if (id =? 1)%float then ok {| id := 1%float; name := "John" |}
  else widen (err "User not found").

(** ** Run-time reading *)

Module JS.

(** Addresses of heap-allocated objects. *)
Abbreviation loc := nat (only parsing).

(** JavaScript values.  An object is known by its address; functions and
    arrays are objects. *)
Inductive Value : Type :=
| VUndefined
| VNull
| VBoolean (b : bool)
| VNumber (n : float)
| VBigInt (z : Z)
| VString (s : string)
| VSymbol (n : nat)
| VObject (l : loc).

(** The own data properties of an object, and the store of objects.  The
    object literals of [ok] and [err] create data properties only; accessor
    properties and proxies are not modelled. *)
Abbreviation Object := (gmap string Value) (only parsing).
Abbreviation Heap := (gmap nat (gmap string Value)) (only parsing).

Inductive Error : Type :=
| TypeError        (* a property read on [undefined] or [null] *)
| DanglingReference. (* an address outside the heap; no program holds one *)

Inductive Completion (A : Type) : Type :=
| Normal (a : A)
| Throw (e : Error).

Arguments Normal {A} a.
Arguments Throw {A} e.

(** A computation reads and writes the heap and completes normally or
    abruptly. *)
Definition M (A : Type) : Type := Heap -> Completion A * Heap.

Definition ret {A : Type} (a : A) : M A := fun h => (Normal a, h).

Definition bind {A B : Type} (m : M A) (k : A -> M B) : M B :=
  fun h =>
    match m h with
    | (Normal a, h') => k a h'
    | (Throw e, h') => (Throw e, h')
    end.

Definition throw {A : Type} (e : Error) : M A := fun h => (Throw e, h).

Definition eval {A : Type} (m : M A) (h : Heap) : Completion A := fst (m h).
Definition exec {A : Type} (m : M A) (h : Heap) : Heap := snd (m h).

(** An object literal: a new object at an unused address. *)
Definition alloc (o : Object) : M Value :=
  fun h => let l := fresh (dom h) in (Normal (VObject l), <[l := o]> h).

(** [v.key] for the two keys this library reads, [success] and [value].
    The read throws on [undefined] and [null] and is a lookup among the own
    data properties of an object.  It is exact on [undefined], on [null] and
    on every object that has [key] as an own data property, which is what
    the object literals of [ok] and [err] build; prototype chains, accessors
    and proxies are not modelled, so an absent key and a primitive receiver
    read as [undefined]. *)
Definition get_prop (v : Value) (key : string) : M Value :=
  match v with
  | VUndefined | VNull => throw TypeError
  | VObject l =>
      fun h =>
        match h !! l with
        | Some o => ret (default VUndefined (o !! key)) h
        | None => throw DanglingReference h
        end
  | VBoolean _ | VNumber _ | VBigInt _ | VString _ | VSymbol _ => ret VUndefined
  end.

(** The conversion applied by [!]. *)
Definition ToBoolean (v : Value) : bool :=
  match v with
  | VUndefined | VNull => false
  | VBoolean b => b
  | VNumber n => negb (is_zero n || is_nan n)
  | VBigInt z => negb (z =? 0)%Z
  | VString s => negb (String.eqb s "")
  | VSymbol _ | VObject _ => true
  end.

(** [{ success: b, value }] *)
Definition literal (b : bool) (value : Value) : Object :=
  {[ "success" := VBoolean b; "value" := value ]}.

(** [ok = (value) => ({ success: true, value })] *)
Definition ok (value : Value) : M Value := alloc (literal true value).

(** [err = (value) => ({ success: false, value })] *)
Definition err (value : Value) : M Value := alloc (literal false value).

(** [isOk = (result) => result.success] *)
Definition isOk (result : Value) : M Value := get_prop result "success".

(** [isErr = (result) => !result.success] *)
Definition isErr (result : Value) : M Value :=
  bind (get_prop result "success") (fun s => ret (VBoolean (negb (ToBoolean s)))).

(** [r] inhabits [Result<T, E>] in heap [h]: an object whose [success] is
    a boolean and whose [value] inhabits [T] when [success] is true and [E]
    otherwise.  [T] and [E] are any decidable sets of values. *)
Definition is_Result (T E : Heap -> Value -> bool) (h : Heap) (r : Value) : bool :=
  match r with
  | VObject l =>
      match h !! l with
      | Some o =>
          match o !! "success", o !! "value" with
          | Some (VBoolean true), Some p => T h p
          | Some (VBoolean false), Some p => E h p
          | _, _ => false
          end
      | None => false
      end
  | _ => false
  end.

(** The type [string], for the bound of [err]. *)
Definition is_string (h : Heap) (v : Value) : bool :=
  match v with VString _ => true | _ => false end.

(** The type [unknown]. *)
Definition is_unknown (h : Heap) (v : Value) : bool := true.

(** A caller that queries one result several times: each query is one of
    the two predicates, and the queries run one after the other on the
    heap the previous one left. *)
Inductive Predicate : Type := IsOk | IsErr.

Definition call (p : Predicate) (result : Value) : M Value :=
  match p with
  | IsOk => isOk result
  | IsErr => isErr result
  end.

Fixpoint calls (ps : list Predicate) (result : Value) (h : Heap) : Heap :=
  match ps with
  | [] => h
  | p :: ps' => calls ps' result (exec (call p result) h)
  end.

End JS.

(** ** The two readings side by side

    [represents r h v]: in heap [h] the value [v] is an object whose
    [success] property is the discriminant of the typed result [r]. *)
Definition represents {T E : Type} (r : Result T E) (h : gmap nat (gmap string JS.Value))
    (v : JS.Value) : Prop :=
  exists (l : nat) (o : gmap string JS.Value),
    v = JS.VObject l /\ h !! l = Some o /\ o !! "success" = Some (JS.VBoolean (success r)).

(** ** Branching on a result *)

(** The test of [if (isErr(result))] together with the narrowing it gives:
    evidence of failure in the branch taken, evidence of success after it. *)
Definition guard_isErr {T E : Type} (result : Result T E) :
    {isErr result = true} + {isOk result = true} :=
  match result as r return {isErr r = true} + {isOk r = true} with
  | mkResult b v =>
      match b as b0 return forall v0 : (if b0 then T else E),
          {isErr (mkResult b0 v0) = true} + {isOk (mkResult b0 v0) = true} with
      | true => fun _ => right eq_refl
      | false => fun _ => left eq_refl
      end v
  end.

(** * Properties *)

(** ** Typed reading: constructors, predicates and guards *)

Lemma success_ok {T : Type} (v : T) : success (ok v) = true.
Proof. reflexivity. Qed.

Lemma success_err {E : Type} `{ExtendsString E} (e : E) : success (err e) = false.
Proof. reflexivity. Qed.

Lemma isErr_negb_isOk {T E : Type} (r : Result T E) : isErr r = negb (isOk r).
Proof. reflexivity. Qed.

Lemma valueOk_mk {T E : Type} (v : T) (H : isOk (@mkResult T E true v) = true) :
  valueOk (mkResult true v) H = v.
Proof. reflexivity. Qed.

Lemma valueErr_mk {T E : Type} (e : E) (H : isErr (@mkResult T E false e) = true) :
  valueErr (mkResult false e) H = e.
Proof. reflexivity. Qed.

(** The guarded read is the plain field read: the evidence only fixes the
    type at which the field is seen. *)
Lemma valueOk_value {T E : Type} (r : Result T E) (H : isOk r = true) :
  valueOk r H = eq_rect (success r) (fun b : bool => if b then T else E) (value r) true H.
Proof.
  destruct r as [[] v]; cbn in H.
  - rewrite (UIP_refl_bool _ H). reflexivity.
  - discriminate H.
Qed.

(** Nothing inhabits the success side of what [err] returns. *)
Lemma never_isOk {E : Type} (r : Result never E) : isOk r = false.
Proof. destruct r as [[] v]; [destruct v | reflexivity]. Qed.

(** Subsumption leaves the discriminant alone. *)
Lemma success_subsume {T E T' E' : Type} (f : T -> T') (g : E -> E') (r : Result T E) :
  success (subsume f g r) = success r.
Proof. destruct r as [[] v]; reflexivity. Qed.

Lemma success_widen {T E : Type} `{ExtendsString E} (r : Result never E) :
  success (@widen T E _ r) = false.
Proof. unfold widen. rewrite success_subsume. apply (never_isOk r). Qed.

(** Filtering with a guard is filtering. *)
Lemma filter_guard_filter {A : Type} (p : A -> bool) (l : list A) :
  map (@proj1_sig A (fun a => p a = true)) (filter_guard p l) = List.filter p l.
Proof.
  induction l as [|a l IH]; cbn; [reflexivity|].
  enough (Hcase : forall (b : bool) (Hb : p a = b),
             map (@proj1_sig A (fun a => p a = true))
               (match b as b0 return p a = b0 -> list {a : A | p a = true} with
                | true => fun H => exist _ a H :: filter_guard p l
                | false => fun _ => filter_guard p l
                end Hb)
             = if b then a :: List.filter p l else List.filter p l)
    by exact (Hcase (p a) eq_refl).
  intros [] Hb; cbn; rewrite IH; reflexivity.
Qed.

(** [findUser] succeeds exactly on the numbers that [===] equates with 1. *)
Lemma findUser_cases (n : number) :
  isOk (findUser n) = (n =? 1)%float.
Proof. unfold findUser. destruct (n =? 1)%float; reflexivity. Qed.

(** C1: for every Result [r], of any payload types, [isOk r] and [isErr r]
    are opposite booleans: they differ, [isErr r] is the negation of
    [isOk r], and exactly one of the two is true. *)
Theorem isOk_isErr_complement (T E : Type) (r : Result T E) :
  isOk r <> isErr r /\
  isErr r = negb (isOk r) /\
  ((isOk r = true /\ isErr r = false) \/ (isOk r = false /\ isErr r = true)).
Proof.
  unfold isErr, isOk.
  destruct (success r); cbn; repeat split; try discriminate; auto.
Qed.

(** C2: for every value [v], [isOk (ok v)] is true and [isErr (ok v)] is
    false. *)
Theorem ok_isOk (T : Type) (v : T) :
  isOk (ok v) = true /\ isErr (ok v) = false.
Proof. split; reflexivity. Qed.

(** C3: for every value [v] of a type that extends string, [isErr (err v)]
    is true and [isOk (err v)] is false. *)
Theorem err_isErr (E : Type) `{ExtendsString E} (v : E) :
  isErr (err v) = true /\ isOk (err v) = false.
Proof. split; reflexivity. Qed.

(** C4: round trip.  Reading the payload of [ok v] under the success branch
    (with the evidence of [isOk]) gives [v], and reading the payload of
    [err e] under the failure branch (with the evidence of [isErr]) gives
    [e]. *)
Theorem constructors_roundtrip (T E : Type) `{ExtendsString E} (v : T) (e : E)
    (Hok : isOk (ok v) = true) (Herr : isErr (err e) = true) :
  valueOk (ok v) Hok = v /\ valueErr (err e) Herr = e.
Proof. split; [apply valueOk_mk | apply valueErr_mk]. Qed.

Lemma constructors_roundtrip_witness :
  valueOk (ok 42%float) eq_refl = 42%float /\
  valueErr (err "User not found") eq_refl = "User not found".
Proof. apply (constructors_roundtrip number string 42%float "User not found"). Defined.

(** C7: [findUser 1] is a success whose payload has name John, and
    [findUser 999] is a failure whose payload is the string User not found. *)
Theorem findUser_scenario :
  isOk (findUser 1%float) = true /\
  (forall H : isOk (findUser 1%float) = true,
     name (valueOk (findUser 1%float) H) = "John") /\
  isErr (findUser 999%float) = true /\
  (forall H : isErr (findUser 999%float) = true,
     valueErr (findUser 999%float) H = "User not found").
Proof.
  change (findUser 1%float) with (ok {| id := 1%float; name := "John" |}).
  change (findUser 999%float) with (@mkResult User string false "User not found").
  repeat split.
Qed.

(** C8: filtering [[ok 1; err "x"; ok 3]] with [isOk] and projecting the
    payloads gives the list [[1; 3]], in this order. *)
Theorem filter_isOk_scenario :
  successValues [ok 1%float; widen (err "x"); ok 3%float] = [1%float; 3%float] /\
  List.filter isOk [ok 1%float; widen (err "x"); ok 3%float] = [ok 1%float; ok 3%float].
Proof. split; reflexivity. Qed.

(** C9: the two constructors never build the same result: the discriminant
    of [ok v] is true and that of [err e] is false, so [ok v] differs from
    [err e] at every common type, whatever the payloads. *)
Theorem ok_err_disjoint (T E : Type) `{ExtendsString E} (v : T) (e : E) :
  success (ok v) <> success (err e) /\
  ok v <> widen (err e) /\
  (forall (T' E' : Type) (f : T -> T') (f' : never -> T') (g : string -> E') (g' : E -> E'),
     subsume f g (ok v) <> subsume f' g' (err e)).
Proof.
  split; [discriminate|].
  split; [intros Heq; apply (f_equal success) in Heq; discriminate Heq|].
  intros T' E' f f' g g' Heq. apply (f_equal success) in Heq. discriminate Heq.
Qed.

(** C10: the predicates read the discriminant only.  Two results with the
    same discriminant get the same answers from [isOk] and from [isErr],
    whatever their payloads and payload types. *)
Theorem predicates_ignore_payload (T1 E1 T2 E2 : Type)
    (r1 : Result T1 E1) (r2 : Result T2 E2) :
  success r1 = success r2 ->
  isOk r1 = isOk r2 /\ isErr r1 = isErr r2.
Proof. unfold isOk, isErr. intros ->. split; reflexivity. Qed.

Lemma predicates_ignore_payload_witness :
  isOk (ok 1%float) = isOk (ok "John") /\ isErr (ok 1%float) = isErr (ok "John").
Proof.
  apply (predicates_ignore_payload number string string string (ok 1%float) (ok "John")).
  reflexivity.
Defined.

(** ** Run-time reading: heap, completions and purity *)

Lemma alloc_fresh (h : gmap nat (gmap string JS.Value)) : h !! fresh (dom h) = None.
Proof. apply not_elem_of_dom, is_fresh. Qed.

Lemma alloc_spec (o : gmap string JS.Value) (h : gmap nat (gmap string JS.Value)) :
  exists l : nat,
    h !! l = None /\ JS.alloc o h = (JS.Normal (JS.VObject l), <[l := o]> h).
Proof. exists (fresh (dom h)). split; [apply alloc_fresh | reflexivity]. Qed.

(** A property read never writes, whether it returns or throws. *)
Lemma get_prop_exec (v : JS.Value) (key : string) (h : gmap nat (gmap string JS.Value)) :
  JS.exec (JS.get_prop v key) h = h.
Proof.
  unfold JS.exec. destruct v; cbn; try reflexivity.
  destruct (h !! l); reflexivity.
Qed.

Lemma isOk_exec (r : JS.Value) (h : gmap nat (gmap string JS.Value)) :
  JS.exec (JS.isOk r) h = h.
Proof. apply get_prop_exec. Qed.

Lemma isErr_exec (r : JS.Value) (h : gmap nat (gmap string JS.Value)) :
  JS.exec (JS.isErr r) h = h.
Proof.
  unfold JS.exec, JS.isErr, JS.bind.
  pose proof (get_prop_exec r "success" h) as Hh. unfold JS.exec in Hh.
  destruct (JS.get_prop r "success" h) as [[s|e] h']; cbn in *; exact Hh.
Qed.

Lemma iter_exec_id (f : gmap nat (gmap string JS.Value) -> gmap nat (gmap string JS.Value))
    (n : nat) (h : gmap nat (gmap string JS.Value)) :
  (forall h', f h' = h') -> Nat.iter n f h = h.
Proof.
  intros Hf. induction n as [|n IH]; [reflexivity|].
  change (Nat.iter (S n) f h) with (f (Nat.iter n f h)).
  rewrite IH. apply Hf.
Qed.

(** What a well-typed Result looks like in the heap. *)
Lemma is_Result_inv (T E : gmap nat (gmap string JS.Value) -> JS.Value -> bool)
    (h : gmap nat (gmap string JS.Value)) (r : JS.Value) :
  JS.is_Result T E h r = true ->
  exists (l : nat) (o : gmap string JS.Value) (b : bool) (p : JS.Value),
    r = JS.VObject l /\ h !! l = Some o /\
    o !! "success" = Some (JS.VBoolean b) /\ o !! "value" = Some p /\
    (if b then T h p else E h p) = true.
Proof.
  unfold JS.is_Result. intros H.
  destruct r as [| | | | | | |l]; try discriminate H.
  destruct (h !! l) as [o|] eqn:Hl; [|discriminate H].
  destruct (o !! "success") as [[| |b| | | | |]|] eqn:Hs; try discriminate H;
    try (destruct (o !! "value"); discriminate H).
  destruct (o !! "value") as [p|] eqn:Hv; [|destruct b; discriminate H].
  exists l, o, b, p. destruct b; auto.
Qed.

Lemma isOk_object (l : nat) (o : gmap string JS.Value) (b : bool)
    (h : gmap nat (gmap string JS.Value)) :
  h !! l = Some o -> o !! "success" = Some (JS.VBoolean b) ->
  JS.isOk (JS.VObject l) h = (JS.Normal (JS.VBoolean b), h).
Proof. intros Hl Hs. unfold JS.isOk, JS.get_prop. rewrite Hl, Hs. reflexivity. Qed.

Lemma isErr_object (l : nat) (o : gmap string JS.Value) (b : bool)
    (h : gmap nat (gmap string JS.Value)) :
  h !! l = Some o -> o !! "success" = Some (JS.VBoolean b) ->
  JS.isErr (JS.VObject l) h = (JS.Normal (JS.VBoolean (negb b)), h).
Proof.
  intros Hl Hs. unfold JS.isErr, JS.bind, JS.get_prop. rewrite Hl, Hs. reflexivity.
Qed.

Lemma literal_success (b : bool) (v : JS.Value) :
  JS.literal b v !! "success" = Some (JS.VBoolean b).
Proof. unfold JS.literal. rewrite lookup_insert_eq. reflexivity. Qed.

Lemma literal_value (b : bool) (v : JS.Value) :
  JS.literal b v !! "value" = Some v.
Proof.
  unfold JS.literal. rewrite lookup_insert_ne by discriminate.
  apply lookup_singleton_eq.
Qed.

Lemma call_exec (p : JS.Predicate) (r : JS.Value) (h : gmap nat (gmap string JS.Value)) :
  JS.exec (JS.call p r) h = h.
Proof. destruct p; [apply isOk_exec | apply isErr_exec]. Qed.

Lemma calls_heap (ps : list JS.Predicate) (r : JS.Value) (h : gmap nat (gmap string JS.Value)) :
  JS.calls ps r h = h.
Proof.
  revert h. induction ps as [|p ps IH]; intros h; cbn; [reflexivity|].
  rewrite call_exec. apply IH.
Qed.

(** ** The run-time functions compute what the typed ones say *)

Lemma ok_refines {T : Type} (v : T) (pv : JS.Value) (h : gmap nat (gmap string JS.Value)) :
  exists (l : nat) (h' : gmap nat (gmap string JS.Value)),
    JS.ok pv h = (JS.Normal (JS.VObject l), h') /\ represents (ok v) h' (JS.VObject l).
Proof.
  destruct (alloc_spec (JS.literal true pv) h) as (l & _ & Hrun).
  exists l, (<[l := JS.literal true pv]> h). split; [exact Hrun|].
  exists l, (JS.literal true pv). split; [reflexivity|].
  split; [apply lookup_insert_eq | apply literal_success].
Qed.

Lemma err_refines {E : Type} `{ExtendsString E} (e : E) (pv : JS.Value)
    (h : gmap nat (gmap string JS.Value)) :
  exists (l : nat) (h' : gmap nat (gmap string JS.Value)),
    JS.err pv h = (JS.Normal (JS.VObject l), h') /\ represents (err e) h' (JS.VObject l).
Proof.
  destruct (alloc_spec (JS.literal false pv) h) as (l & _ & Hrun).
  exists l, (<[l := JS.literal false pv]> h). split; [exact Hrun|].
  exists l, (JS.literal false pv). split; [reflexivity|].
  split; [apply lookup_insert_eq | apply literal_success].
Qed.

Lemma isOk_refines {T E : Type} (r : Result T E) (h : gmap nat (gmap string JS.Value))
    (v : JS.Value) :
  represents r h v -> JS.isOk v h = (JS.Normal (JS.VBoolean (isOk r)), h).
Proof. intros (l & o & -> & Hl & Hs). exact (isOk_object l o _ h Hl Hs). Qed.

Lemma isErr_refines {T E : Type} (r : Result T E) (h : gmap nat (gmap string JS.Value))
    (v : JS.Value) :
  represents r h v -> JS.isErr v h = (JS.Normal (JS.VBoolean (isErr r)), h).
Proof. intros (l & o & -> & Hl & Hs). exact (isErr_object l o _ h Hl Hs). Qed.

(** Constructing and then querying, as one run-time computation. *)
Lemma construct_then_query (b : bool) (v : JS.Value) (h : gmap nat (gmap string JS.Value)) :
  JS.eval (JS.bind (JS.alloc (JS.literal b v)) JS.isOk) h = JS.Normal (JS.VBoolean b) /\
  JS.eval (JS.bind (JS.alloc (JS.literal b v)) JS.isErr) h = JS.Normal (JS.VBoolean (negb b)) /\
  JS.eval (JS.bind (JS.alloc (JS.literal b v)) (fun r => JS.get_prop r "value")) h = JS.Normal v.
Proof.
  destruct (alloc_spec (JS.literal b v) h) as (l & _ & Hrun).
  unfold JS.eval, JS.bind. rewrite Hrun.
  rewrite (isOk_object l _ b _ (lookup_insert_eq h l _) (literal_success b v)).
  rewrite (isErr_object l _ b _ (lookup_insert_eq h l _) (literal_success b v)).
  unfold JS.get_prop. rewrite lookup_insert_eq, literal_value. auto.
Qed.

(** C5: the four operations are total and pure.  In every heap [h], the
    empty one included, [ok v] and [err v] complete normally for every
    value [v], returning a new object and leaving every object of [h] as it
    was; on every value [r] of type Result, [isOk r] and [isErr r] complete
    normally with a boolean and leave the heap as it was.  Nothing throws. *)
Theorem operations_total_pure
    (T E : gmap nat (gmap string JS.Value) -> JS.Value -> bool)
    (h : gmap nat (gmap string JS.Value)) (v : JS.Value) :
  (exists l : nat,
     JS.ok v h = (JS.Normal (JS.VObject l), <[l := JS.literal true v]> h) /\
     h !! l = None /\ h ⊆ JS.exec (JS.ok v) h) /\
  (exists l : nat,
     JS.err v h = (JS.Normal (JS.VObject l), <[l := JS.literal false v]> h) /\
     h !! l = None /\ h ⊆ JS.exec (JS.err v) h) /\
  (forall r : JS.Value,
     JS.is_Result T E h r = true ->
     (exists b : bool, JS.isOk r h = (JS.Normal (JS.VBoolean b), h)) /\
     (exists b : bool, JS.isErr r h = (JS.Normal (JS.VBoolean b), h))).
Proof.
  split; [|split].
  - destruct (alloc_spec (JS.literal true v) h) as (l' & Hfresh & Hrun).
    exists l'. unfold JS.exec, JS.ok. rewrite Hrun. cbn.
    repeat split; [exact Hfresh | apply insert_subseteq, Hfresh].
  - destruct (alloc_spec (JS.literal false v) h) as (l' & Hfresh & Hrun).
    exists l'. unfold JS.exec, JS.err. rewrite Hrun. cbn.
    repeat split; [exact Hfresh | apply insert_subseteq, Hfresh].
  - intros r Hr.
    destruct (is_Result_inv T E h r Hr) as (l & o & b & p & -> & Hl & Hs & _ & _).
    split.
    + exists b. exact (isOk_object l o b h Hl Hs).
    + exists (negb b). exact (isErr_object l o b h Hl Hs).
Qed.

(** The four operations at work: the two constructors on a first call, in
    the empty heap, and the two predicates on a heap holding one result. *)
Lemma operations_total_pure_witness :
  (exists l : nat,
     JS.ok (JS.VNumber 42%float) ∅
     = (JS.Normal (JS.VObject l), <[l := JS.literal true (JS.VNumber 42%float)]> ∅) /\
     (∅ : gmap nat (gmap string JS.Value)) !! l = None) /\
  (exists l : nat,
     JS.err (JS.VString "User not found") ∅
     = (JS.Normal (JS.VObject l), <[l := JS.literal false (JS.VString "User not found")]> ∅) /\
     (∅ : gmap nat (gmap string JS.Value)) !! l = None) /\
  (exists b : bool,
     JS.isOk (JS.VObject 0) {[ 0 := JS.literal true (JS.VNumber 42%float) ]}
     = (JS.Normal (JS.VBoolean b), {[ 0 := JS.literal true (JS.VNumber 42%float) ]})) /\
  (exists b : bool,
     JS.isErr (JS.VObject 0) {[ 0 := JS.literal true (JS.VNumber 42%float) ]}
     = (JS.Normal (JS.VBoolean b), {[ 0 := JS.literal true (JS.VNumber 42%float) ]})).
Proof.
  destruct (operations_total_pure JS.is_unknown JS.is_string ∅ (JS.VNumber 42%float))
    as [(l1 & Hok & Hfresh1 & _) _].
  destruct (operations_total_pure JS.is_unknown JS.is_string ∅ (JS.VString "User not found"))
    as [_ [(l2 & Herr & Hfresh2 & _) _]].
  destruct (operations_total_pure JS.is_unknown JS.is_string
              {[ 0 := JS.literal true (JS.VNumber 42%float) ]} JS.VUndefined)
    as [_ [_ Hpred]].
  destruct (Hpred (JS.VObject 0) eq_refl) as [HisOk HisErr].
  split; [exists l1; split; assumption|].
  split; [exists l2; split; assumption|].
  split; assumption.
Defined.

(** C6: the predicates are repeatable.  After any sequence of [isOk] and
    [isErr] calls on a value [r], a further call of [isOk r] completes as
    the first one would have, and so does a further call of [isErr r]; the
    calls leave the heap as it was. *)
Theorem predicates_repeatable (r : JS.Value) (h : gmap nat (gmap string JS.Value))
    (ps : list JS.Predicate) :
  JS.eval (JS.isOk r) (JS.calls ps r h) = JS.eval (JS.isOk r) h /\
  JS.eval (JS.isErr r) (JS.calls ps r h) = JS.eval (JS.isErr r) h /\
  JS.calls ps r h = h.
Proof. rewrite calls_heap. repeat split. Qed.

(** * Further properties *)

(** ** Typed reading *)

Lemma successValues_cons_ok {T E : Type} (v : T) (l : list (Result T E)) :
  successValues (mkResult true v :: l) = v :: successValues l.
Proof. reflexivity. Qed.

Lemma successValues_cons_err {T E : Type} (e : E) (l : list (Result T E)) :
  successValues (mkResult false e :: l) = successValues l.
Proof. reflexivity. Qed.

(** X1: a value of the type that [err] returns, [Result never E], is always
    a failure, however it was built, and it stays one at every wider type. *)
Theorem never_is_failure (E : Type) (r : Result never E) :
  isOk r = false /\ isErr r = true /\
  (forall (T' E' : Type) (f : never -> T') (g : E -> E'),
     isOk (subsume f g r) = false /\ isErr (subsume f g r) = true).
Proof.
  destruct r as [[] v]; [destruct v|].
  repeat split.
Qed.

(** X2: the two constructors cover the type: every [Result T string] is
    [ok v] for some [v] or [err e] for some string [e]. *)
Theorem constructors_exhaustive (T : Type) (r : Result T string) :
  (exists v : T, r = ok v) \/ (exists e : string, r = widen (err e)).
Proof.
  destruct r as [[] v]; [left | right]; exists v; reflexivity.
Qed.

(** X3: the constructors are injective: two results built by [ok] are
    equal exactly when the payloads are, and the same for [err], also after
    widening to [Result T string]. *)
Theorem constructors_injective (T E : Type) `{ExtendsString E} (v1 v2 : T) (e1 e2 : E) :
  (ok v1 = ok v2 <-> v1 = v2) /\
  (err e1 = err e2 <-> e1 = e2) /\
  (@widen T E _ (err e1) = widen (err e2) <-> e1 = e2).
Proof.
  repeat split; try (intros ->; reflexivity).
  - intros Heq.
    apply (f_equal (fun r : Result T string =>
                      match guard_isErr r with
                      | left _ => v1
                      | right Hok => valueOk r Hok
                      end)) in Heq.
    exact Heq.
  - intros Heq.
    apply (f_equal (fun r : Result never E =>
                      match guard_isErr r with
                      | left Herr => valueErr r Herr
                      | right _ => e1
                      end)) in Heq.
    exact Heq.
  - intros Heq.
    apply (f_equal (fun r : Result T string =>
                      match guard_isErr r with
                      | left Herr => valueErr r Herr
                      | right _ => to_string e1
                      end)) in Heq.
    apply to_string_inj. exact Heq.
Qed.

(** X4: extracting the success values of a list of results undoes wrapping:
    from the list of [ok v] for [v] in [vs] it returns [vs], and from a list
    of failures it returns the empty list. *)
Theorem successValues_map_ok (T : Type) (vs : list T) (es : list string) :
  successValues (map ok vs) = vs /\
  successValues (map (fun e => @widen T string _ (err e)) es) = [].
Proof.
  split.
  - induction vs as [|v vs IH]; [reflexivity|].
    cbn [map]. unfold ok at 1. rewrite successValues_cons_ok, IH. reflexivity.
  - induction es as [|e es IH]; [reflexivity|].
    cbn [map]. change (@widen T string _ (err e)) with (@mkResult T string false e).
    rewrite successValues_cons_err. exact IH.
Qed.

(** X5: [successValues] keeps the order of the list and works element by
    element: on a concatenation it is the concatenation of the parts, and
    it returns as many values as there are successes. *)
Theorem successValues_app (T E : Type) (l1 l2 : list (Result T E)) :
  successValues (l1 ++ l2)%list = (successValues l1 ++ successValues l2)%list /\
  length (successValues l1) = length (List.filter isOk l1).
Proof.
  split.
  - induction l1 as [|[[] v] l1 IH]; [reflexivity| |].
    + cbn [app]. rewrite !successValues_cons_ok, IH. reflexivity.
    + cbn [app]. rewrite !successValues_cons_err. exact IH.
  - induction l1 as [|[[] v] l1 IH]; [reflexivity| |].
    + rewrite successValues_cons_ok. cbn. rewrite IH. reflexivity.
    + rewrite successValues_cons_err. cbn. exact IH.
Qed.

(** X6: filtering a list of results with [isOk] and with [isErr] splits it:
    the two parts together are a permutation of the list, none of the kept
    successes is a failure, and the lengths add up. *)
Theorem filter_isOk_isErr_partition (T E : Type) (l : list (Result T E)) :
  Permutation l (List.filter isOk l ++ List.filter isErr l)%list /\
  List.filter isErr (List.filter isOk l) = [] /\
  length (List.filter isOk l) + length (List.filter isErr l) = length l.
Proof.
  repeat split.
  - induction l as [|[[] v] l IH]; cbn.
    + constructor.
    + constructor. exact IH.
    + apply Permutation_cons_app. exact IH.
  - induction l as [|[[] v] l IH]; cbn; auto.
  - induction l as [|[[] v] l IH]; cbn; [reflexivity| |].
    + rewrite IH. reflexivity.
    + rewrite Nat.add_succ_r, IH. reflexivity.
Qed.

(** X7: [findUser] of the test file, on every number: it succeeds exactly
    when the number is equal to 1 in the sense of [===] (so not on NaN); a
    success always carries the user with id 1 and name John, a failure
    always carries the string User not found. *)
Theorem findUser_total (n : number) :
  isOk (findUser n) = (n =? 1)%float /\
  isErr (findUser n) = negb (n =? 1)%float /\
  (forall H : isOk (findUser n) = true,
     valueOk (findUser n) H = {| id := 1%float; name := "John" |}) /\
  (forall H : isErr (findUser n) = true,
     valueErr (findUser n) H = "User not found").
Proof.
  unfold findUser. destruct (n =? 1)%float; repeat split; intros H;
    first [reflexivity | discriminate H].
Qed.

(** ** Run-time reading: values that are not results *)

Lemma get_prop_mono (r : JS.Value) (key : string) (h h' : gmap nat (gmap string JS.Value)) :
  (forall l : nat, r = JS.VObject l -> is_Some (h !! l)) ->
  h ⊆ h' ->
  JS.eval (JS.get_prop r key) h' = JS.eval (JS.get_prop r key) h.
Proof.
  intros Halloc Hsub. unfold JS.eval. destruct r as [| | | | | | |l]; cbn; try reflexivity.
  destruct (Halloc l eq_refl) as [o Ho].
  rewrite Ho, (lookup_weaken h h' l o Ho Hsub). reflexivity.
Qed.

Lemma isErr_eval (r : JS.Value) (h : gmap nat (gmap string JS.Value)) :
  JS.eval (JS.isErr r) h =
  match JS.eval (JS.isOk r) h with
  | JS.Normal s => JS.Normal (JS.VBoolean (negb (JS.ToBoolean s)))
  | JS.Throw e => JS.Throw e
  end.
Proof.
  unfold JS.eval, JS.isErr, JS.isOk, JS.bind.
  destruct (JS.get_prop r "success" h) as [[s|e] h']; reflexivity.
Qed.

(** X11: on [undefined] and on [null] the predicates do not answer false:
    the property read [result.success] throws a TypeError, in every heap,
    and the heap is left as it was. *)
Theorem predicates_throw_on_nullish (h : gmap nat (gmap string JS.Value)) :
  JS.isOk JS.VUndefined h = (JS.Throw JS.TypeError, h) /\
  JS.isErr JS.VUndefined h = (JS.Throw JS.TypeError, h) /\
  JS.isOk JS.VNull h = (JS.Throw JS.TypeError, h) /\
  JS.isErr JS.VNull h = (JS.Throw JS.TypeError, h).
Proof. repeat split. Qed.

(** ** Run-time reading: guards, allocation and frames *)

(** X13: the type guards are sound at run time.  On a value of type
    [Result<T, E>] the predicates return opposite booleans, and the payload
    read by [result.value] has type [T] when [isOk] says true and type [E]
    when [isErr] says true. *)
Theorem guards_sound (T E : gmap nat (gmap string JS.Value) -> JS.Value -> bool)
    (h : gmap nat (gmap string JS.Value)) (r : JS.Value) :
  JS.is_Result T E h r = true ->
  exists (b : bool) (p : JS.Value),
    JS.isOk r h = (JS.Normal (JS.VBoolean b), h) /\
    JS.isErr r h = (JS.Normal (JS.VBoolean (negb b)), h) /\
    JS.get_prop r "value" h = (JS.Normal p, h) /\
    (if b then T h p else E h p) = true.
Proof.
  intros Hr.
  destruct (is_Result_inv T E h r Hr) as (l & o & b & p & -> & Hl & Hs & Hv & Hp).
  exists b, p. repeat split.
  - exact (isOk_object l o b h Hl Hs).
  - exact (isErr_object l o b h Hl Hs).
  - unfold JS.get_prop. rewrite Hl, Hv. reflexivity.
  - exact Hp.
Qed.

Lemma guards_sound_witness :
  exists (b : bool) (p : JS.Value),
    JS.isOk (JS.VObject 0) {[ 0 := JS.literal false (JS.VString "x") ]}
    = (JS.Normal (JS.VBoolean b), {[ 0 := JS.literal false (JS.VString "x") ]}) /\
    JS.isErr (JS.VObject 0) {[ 0 := JS.literal false (JS.VString "x") ]}
    = (JS.Normal (JS.VBoolean (negb b)), {[ 0 := JS.literal false (JS.VString "x") ]}) /\
    JS.get_prop (JS.VObject 0) "value" {[ 0 := JS.literal false (JS.VString "x") ]}
    = (JS.Normal p, {[ 0 := JS.literal false (JS.VString "x") ]}) /\
    (if b
     then JS.is_unknown {[ 0 := JS.literal false (JS.VString "x") ]} p
     else JS.is_string {[ 0 := JS.literal false (JS.VString "x") ]} p) = true.
Proof.
  apply (guards_sound JS.is_unknown JS.is_string
           {[ 0 := JS.literal false (JS.VString "x") ]} (JS.VObject 0)).
  vm_compute. reflexivity.
Defined.

(** X14: round trip at run time, in every heap and for every value, typed
    or not: after [ok v], [isOk] returns true, [isErr] returns false and
    [result.value] is [v] itself (the same reference when [v] is an
    object); after [err v], [isOk] returns false, [isErr] returns true and
    [result.value] is [v] itself. *)
Theorem runtime_roundtrip (v : JS.Value) (h : gmap nat (gmap string JS.Value)) :
  (JS.eval (JS.bind (JS.ok v) JS.isOk) h = JS.Normal (JS.VBoolean true) /\
   JS.eval (JS.bind (JS.ok v) JS.isErr) h = JS.Normal (JS.VBoolean false) /\
   JS.eval (JS.bind (JS.ok v) (fun r => JS.get_prop r "value")) h = JS.Normal v) /\
  (JS.eval (JS.bind (JS.err v) JS.isOk) h = JS.Normal (JS.VBoolean false) /\
   JS.eval (JS.bind (JS.err v) JS.isErr) h = JS.Normal (JS.VBoolean true) /\
   JS.eval (JS.bind (JS.err v) (fun r => JS.get_prop r "value")) h = JS.Normal v).
Proof.
  split; [exact (construct_then_query true v h) | exact (construct_then_query false v h)].
Qed.

(** X15: every construction makes a new object.  Of two constructor calls
    in a row the second returns a reference different from the first, both
    objects are in the final heap as built, and the objects that were there
    before are unchanged. *)
Theorem constructors_fresh (v w : JS.Value) (h : gmap nat (gmap string JS.Value)) :
  (exists (l1 l2 : nat) (h' : gmap nat (gmap string JS.Value)),
     JS.bind (JS.ok v) (fun r1 => JS.bind (JS.ok w) (fun r2 => JS.ret (r1, r2))) h
     = (JS.Normal (JS.VObject l1, JS.VObject l2), h') /\
     l1 <> l2 /\
     h' !! l1 = Some (JS.literal true v) /\ h' !! l2 = Some (JS.literal true w) /\
     h ⊆ h') /\
  (exists (l1 l2 : nat) (h' : gmap nat (gmap string JS.Value)),
     JS.bind (JS.ok v) (fun r1 => JS.bind (JS.err w) (fun r2 => JS.ret (r1, r2))) h
     = (JS.Normal (JS.VObject l1, JS.VObject l2), h') /\
     l1 <> l2 /\
     h' !! l1 = Some (JS.literal true v) /\ h' !! l2 = Some (JS.literal false w) /\
     h ⊆ h') /\
  (exists (l1 l2 : nat) (h' : gmap nat (gmap string JS.Value)),
     JS.bind (JS.err v) (fun r1 => JS.bind (JS.ok w) (fun r2 => JS.ret (r1, r2))) h
     = (JS.Normal (JS.VObject l1, JS.VObject l2), h') /\
     l1 <> l2 /\
     h' !! l1 = Some (JS.literal false v) /\ h' !! l2 = Some (JS.literal true w) /\
     h ⊆ h') /\
  (exists (l1 l2 : nat) (h' : gmap nat (gmap string JS.Value)),
     JS.bind (JS.err v) (fun r1 => JS.bind (JS.err w) (fun r2 => JS.ret (r1, r2))) h
     = (JS.Normal (JS.VObject l1, JS.VObject l2), h') /\
     l1 <> l2 /\
     h' !! l1 = Some (JS.literal false v) /\ h' !! l2 = Some (JS.literal false w) /\
     h ⊆ h').
Proof.
  assert (Htwice : forall o1 o2 : gmap string JS.Value,
            exists (l1 l2 : nat) (h' : gmap nat (gmap string JS.Value)),
              JS.bind (JS.alloc o1)
                (fun r1 => JS.bind (JS.alloc o2) (fun r2 => JS.ret (r1, r2))) h
              = (JS.Normal (JS.VObject l1, JS.VObject l2), h') /\
              l1 <> l2 /\ h' !! l1 = Some o1 /\ h' !! l2 = Some o2 /\ h ⊆ h').
  { intros o1 o2.
    destruct (alloc_spec o1 h) as (l1 & Hf1 & Hrun1).
    destruct (alloc_spec o2 (<[l1 := o1]> h)) as (l2 & Hf2 & Hrun2).
    assert (Hne : l1 <> l2).
    { intros ->. rewrite lookup_insert_eq in Hf2. discriminate Hf2. }
    exists l1, l2, (<[l2 := o2]> (<[l1 := o1]> h)).
    unfold JS.bind at 1. rewrite Hrun1. unfold JS.bind. rewrite Hrun2.
    repeat split.
    - exact Hne.
    - rewrite lookup_insert_ne by (intros Heq; apply Hne; symmetry; exact Heq).
      apply lookup_insert_eq.
    - apply lookup_insert_eq.
    - transitivity (<[l1 := o1]> h); apply insert_subseteq; assumption. }
  split; [exact (Htwice (JS.literal true v) (JS.literal true w))|].
  split; [exact (Htwice (JS.literal true v) (JS.literal false w))|].
  split; [exact (Htwice (JS.literal false v) (JS.literal true w))
         | exact (Htwice (JS.literal false v) (JS.literal false w))].
Qed.

(** X16: results are not disturbed by later constructions.  For a value
    [r] whose object, if it is one, is in the heap, [isOk r] and [isErr r]
    answer after [ok v] or [err v] what they answered before. *)
Theorem predicates_stable_under_construction (r v : JS.Value)
    (h : gmap nat (gmap string JS.Value)) :
  (forall l : nat, r = JS.VObject l -> is_Some (h !! l)) ->
  JS.eval (JS.isOk r) (JS.exec (JS.ok v) h) = JS.eval (JS.isOk r) h /\
  JS.eval (JS.isErr r) (JS.exec (JS.ok v) h) = JS.eval (JS.isErr r) h /\
  JS.eval (JS.isOk r) (JS.exec (JS.err v) h) = JS.eval (JS.isOk r) h /\
  JS.eval (JS.isErr r) (JS.exec (JS.err v) h) = JS.eval (JS.isErr r) h.
Proof.
  intros Halloc.
  assert (Hext : forall b : bool, h ⊆ JS.exec (JS.alloc (JS.literal b v)) h).
  { intros b. destruct (alloc_spec (JS.literal b v) h) as (l & Hf & Hrun).
    unfold JS.exec. rewrite Hrun. apply insert_subseteq, Hf. }
  rewrite !isErr_eval. unfold JS.isOk, JS.ok, JS.err.
  rewrite (get_prop_mono r "success" h _ Halloc (Hext true)).
  rewrite (get_prop_mono r "success" h _ Halloc (Hext false)).
  repeat split.
Qed.

Lemma predicates_stable_under_construction_witness :
  JS.eval (JS.isOk (JS.VObject 0))
    (JS.exec (JS.ok (JS.VNumber 3%float)) {[ 0 := JS.literal true (JS.VNumber 1%float) ]})
  = JS.eval (JS.isOk (JS.VObject 0)) {[ 0 := JS.literal true (JS.VNumber 1%float) ]}.
Proof.
  apply (predicates_stable_under_construction (JS.VObject 0) (JS.VNumber 3%float)
           {[ 0 := JS.literal true (JS.VNumber 1%float) ]}).
  intros l Hl. injection Hl as <-. vm_compute. eexists. reflexivity.
Defined.

(** X17: what the constructors return has the declared type: when [v] has
    type [T], [ok v] is a [Result<T, E>] in the heap it leaves, and when [v]
    has type [E], [err v] is one. *)
Theorem constructors_well_typed (T E : gmap nat (gmap string JS.Value) -> JS.Value -> bool)
    (v : JS.Value) (h : gmap nat (gmap string JS.Value)) :
  (T (JS.exec (JS.ok v) h) v = true ->
   exists l : nat,
     JS.eval (JS.ok v) h = JS.Normal (JS.VObject l) /\
     JS.is_Result T E (JS.exec (JS.ok v) h) (JS.VObject l) = true) /\
  (E (JS.exec (JS.err v) h) v = true ->
   exists l : nat,
     JS.eval (JS.err v) h = JS.Normal (JS.VObject l) /\
     JS.is_Result T E (JS.exec (JS.err v) h) (JS.VObject l) = true).
Proof.
  split; intros Hv.
  - destruct (alloc_spec (JS.literal true v) h) as (l & _ & Hrun).
    unfold JS.eval, JS.exec, JS.ok in *. rewrite Hrun in *. cbn [fst snd] in *.
    exists l. split; [reflexivity|].
    unfold JS.is_Result.
    rewrite lookup_insert_eq, literal_success, literal_value. exact Hv.
  - destruct (alloc_spec (JS.literal false v) h) as (l & _ & Hrun).
    unfold JS.eval, JS.exec, JS.err in *. rewrite Hrun in *. cbn [fst snd] in *.
    exists l. split; [reflexivity|].
    unfold JS.is_Result.
    rewrite lookup_insert_eq, literal_success, literal_value. exact Hv.
Qed.

Lemma constructors_well_typed_witness :
  exists l : nat,
    JS.eval (JS.err (JS.VString "User not found")) ∅ = JS.Normal (JS.VObject l) /\
    JS.is_Result JS.is_unknown JS.is_string
      (JS.exec (JS.err (JS.VString "User not found")) ∅) (JS.VObject l) = true.
Proof.
  apply (proj2 (constructors_well_typed JS.is_unknown JS.is_string
                  (JS.VString "User not found") ∅)).
  reflexivity.
Defined.
